(** * S3Client: a thin wrapper around an S3-compatible storage client

    Shallow embedding of [src/class_S3.py].  Every method of the Python
    class [S3Client] is one delegated call to the boto3 client kept in
    [self.s3], optionally wrapped in [try]/[except], plus [print]
    statements.  The embedding keeps exactly that:

    - Python values that travel through the wrapper (policy document,
      lifecycle configuration, service responses, return values) are
      terms of [pyval], with dicts as association lists in insertion
      order;
    - exceptions are terms of [exn], tagged with the part of the class
      hierarchy that the two [except] clauses of the source tell apart
      ([ClientError] < [Exception] < [BaseException]);
    - a method is a computation in the monad [Py]: it reads the instance,
      talks to the storage service, appends lines to standard output and
      either returns a value or raises;
    - the storage service itself (the boto3 client methods), [json.dumps]
      and [repr] of containers are not code of this repository: they are
      Section variables, so every theorem holds for every behaviour of
      the service. *)

From Stdlib Require Import String Ascii ZArith List Bool DecimalString Lia.
Import ListNotations.
Local Open Scope string_scope.
Local Open Scope list_scope.

(** ** Python values *)

#[local] Set Warnings "-register-all".

Inductive pyval : Type :=
| PNone
| PBool (b : bool)
| PInt (z : Z)
| PStr (s : string)
| PList (items : list pyval)
| PDict (entries : list (string * pyval)).

(** ** Exceptions

    [ClientError] is [botocore.exceptions.ClientError]; it carries the
    parsed error response ([e.response]).  [PyException] is any other
    instance of [Exception] (botocore's [EndpointConnectionError],
    [KeyError], ...), [PyBaseException] an instance of [BaseException]
    that is not an [Exception] ([KeyboardInterrupt], [SystemExit]).
    [text] is what [str(e)] gives. *)

Inductive exn : Type :=
| ClientError (text : string) (response : pyval)
| PyException (cls : string) (text : string)
| PyBaseException (cls : string) (text : string).

(** [isinstance(e, ClientError)], the test of [except ClientError]. *)
Definition is_ClientError (e : exn) : bool :=
  match e with
  | ClientError _ _ => true
  | _ => false
  end.

(** [isinstance(e, Exception)], the test of [except Exception]. *)
Definition is_Exception (e : exn) : bool :=
  match e with
  | ClientError _ _ => true
  | PyException _ _ => true
  | PyBaseException _ _ => false
  end.

(** [str(e)]. *)
Definition exn_str (e : exn) : string :=
  match e with
  | ClientError t _ => t
  | PyException _ t => t
  | PyBaseException _ t => t
  end.

(** What a Python expression evaluates to: a value, or a raised exception. *)
Inductive outcome (A : Type) : Type :=
| Returns (a : A)
| Raises (e : exn).
Arguments Returns {A} a.
Arguments Raises {A} e.

(** ** The few operations of Python's data model that the wrapper uses *)

Fixpoint dict_get (k : string) (d : list (string * pyval)) : option pyval :=
  match d with
  | [] => None
  | (k', v) :: rest => if String.eqb k k' then Some v else dict_get k rest
  end.

(** [v == s] for a string literal [s]: only a [str] equals a [str]. *)
Definition py_eq_str (v : pyval) (s : string) : bool :=
  match v with
  | PStr s' => String.eqb s' s
  | _ => false
  end.

Definition is_substring (needle hay : string) : bool :=
  match String.index 0 needle hay with
  | Some _ => true
  | None => false
  end.

(** [KeyError(k)]; its [str] is [repr(k)], the key between quotes for a
    key without quotes or escapes, as are the keys the wrapper looks up. *)
Definition KeyError (k : string) : exn :=
  PyException "KeyError" ("'" ++ k ++ "'")%string.
Definition TypeError (what : string) : exn := PyException "TypeError" what.
Definition AttributeError (what : string) : exn := PyException "AttributeError" what.

(** [v[k]] for a string key [k]: a dict is looked up ([KeyError] when the
    key is absent); nothing else accepts a string subscript. *)
Definition py_getitem (v : pyval) (k : string) : outcome pyval :=
  match v with
  | PDict d =>
      match dict_get k d with
      | Some x => Returns x
      | None => Raises (KeyError k)
      end
  | _ => Raises (TypeError "subscript")
  end.

(** [k in v] for a string [k]. *)
Definition py_contains (k : string) (v : pyval) : outcome bool :=
  match v with
  | PDict d =>
      Returns (match dict_get k d with Some _ => true | None => false end)
  | PList l => Returns (existsb (fun x => py_eq_str x k) l)
  | PStr s => Returns (is_substring k s)
  | _ => Raises (TypeError "not iterable")
  end.

Fixpoint chars (s : string) : list pyval :=
  match s with
  | EmptyString => []
  | String c rest => PStr (String c EmptyString) :: chars rest
  end.

(** The items a [for] loop over [v] visits, in order. *)
Definition py_iter (v : pyval) : outcome (list pyval) :=
  match v with
  | PList l => Returns l
  | PDict d => Returns (map (fun kv => PStr (fst kv)) d)
  | PStr s => Returns (chars s)
  | _ => Raises (TypeError "not iterable")
  end.

(** ** The instance and the outside world *)

(** The keyword arguments of [boto3.client(...)] in [__init__]. *)
Record Boto3Client : Type := mkBoto3Client {
  service_name : string;
  endpoint_url : string;
  aws_access_key_id : string;
  aws_secret_access_key : string;
  signature_version : string;
  region_name : string
}.

(** The attributes of an [S3Client] instance: [self.bucket], [self.s3]. *)
Record S3Client : Type := mkS3Client {
  bucket : string;
  s3 : Boto3Client
}.

(** [S3Client.__init__]. *)
Definition S3Client_init (endpoint access_key secret_key bucket : string)
  : S3Client :=
  {| bucket := bucket;
     s3 := {| service_name := "s3";
              endpoint_url := endpoint;
              aws_access_key_id := access_key;
              aws_secret_access_key := secret_key;
              signature_version := "s3v4";
              region_name := "us-east-1" |} |}.

(** The calls the wrapper makes on [self.s3], with their arguments. *)
Inductive Request : Type :=
| put_bucket_policy (Bucket : string) (Policy : string)
| put_bucket_versioning (Bucket : string) (VersioningConfiguration : pyval)
| put_bucket_lifecycle_configuration
    (Bucket : string) (LifecycleConfiguration : pyval)
| upload_file (Filename : string) (Bucket : string) (Key : string)
| download_file (Bucket : string) (Key : string) (Filename : string)
| list_objects_v2 (Bucket : string)
| head_object (Bucket : string) (Key : string).

(** ** Sample storage services

    Small concrete services and library functions on which the general
    statements below are exercised.  The service state is the number of
    calls served so far. *)

(** A healthy service: every call succeeds; a listing has two objects. *)
Definition healthy (c : Boto3Client) (rq : Request) (n : nat)
  : outcome pyval * nat :=
  match rq with
  | list_objects_v2 _ =>
      (Returns (PDict [("KeyCount", PInt 2);
                       ("Contents",
                        PList [PDict [("Key", PStr "a.csv"); ("Size", PInt 10)];
                               PDict [("Key", PStr "b.csv"); ("Size", PInt 20)]])]),
       S n)
  | upload_file _ _ _ => (Returns PNone, S n)
  | download_file _ _ _ => (Returns PNone, S n)
  | _ => (Returns (PDict [("ResponseMetadata", PDict [])]), S n)
  end.

(** An empty bucket: the listing response has no ["Contents"] key. *)
Definition empty_bucket (c : Boto3Client) (rq : Request) (n : nat)
  : outcome pyval * nat :=
  (Returns (PDict [("KeyCount", PInt 0)]), S n).

(** A service that answers every call with the given exception. *)
Definition failing (e : exn) (c : Boto3Client) (rq : Request) (n : nat)
  : outcome pyval * nat :=
  (Raises e, S n).

Definition error_response (code : string) : pyval :=
  PDict [("Error", PDict [("Code", PStr code); ("Message", PStr "")])].

Definition no_such_bucket : exn :=
  ClientError "An error occurred (NoSuchBucket)" (error_response "NoSuchBucket").
Definition access_denied : exn :=
  ClientError "An error occurred (AccessDenied)" (error_response "AccessDenied").
Definition not_found_404 : exn :=
  ClientError "An error occurred (404)" (error_response "404").
(** botocore's [EndpointConnectionError] derives from [BotoCoreError],
    not from [ClientError]. *)
Definition endpoint_connection_error : exn :=
  PyException "EndpointConnectionError" "Could not connect to the endpoint URL".

(** A service that answers every call with the given value. *)
Definition answering (v : pyval) (c : Boto3Client) (rq : Request) (n : nat)
  : outcome pyval * nat :=
  (Returns v, S n).

(** A listing whose second entry has no ["Key"]. *)
Definition ragged_listing : pyval :=
  PDict [("Contents",
          PList [PDict [("Key", PStr "a.csv")];
                 PDict [("Size", PInt 3)];
                 PDict [("Key", PStr "c.csv")]])].

(** [KeyboardInterrupt]: a [BaseException], not an [Exception]. *)
Definition keyboard_interrupt : exn := PyBaseException "KeyboardInterrupt" "".

Definition sample_dumps (v : pyval) : string := "<json>".
Definition sample_repr (v : pyval) : string := "<repr>".

Definition sample_client : S3Client :=
  S3Client_init "http://localhost:9000" "user_m" "secret" "bucketmaks".

(** ** The wrapper *)

Section Wrapper.

(** The state of the storage service, and what a method of the boto3
    client does: given the client handle it is called on and the
    request, it answers (a value or an exception) and moves the
    service to a new state. *)
Variable Remote : Type.
Variable boto : Boto3Client -> Request -> Remote -> outcome pyval * Remote.

(** [json.dumps], and [repr] for lists and dicts. *)
Variable json_dumps : pyval -> string.
Variable py_repr : pyval -> string.

(** What a method can see and change: the instance it is called on,
    the service, the lines printed so far and, as a ghost record, the
    requests made on [self.s3] so far (oldest first). *)
Record World : Type := mkWorld {
  self : S3Client;
  remote : Remote;
  stdout : list string;
  sent : list Request
}.

Definition Py (A : Type) : Type := World -> outcome A * World.

Definition ret {A} (a : A) : Py A := fun w => (Returns a, w).

Definition raise {A} (e : exn) : Py A := fun w => (Raises e, w).

Definition bind {A B} (m : Py A) (k : A -> Py B) : Py B :=
  fun w =>
    match m w with
    | (Returns a, w') => k a w'
    | (Raises e, w') => (Raises e, w')
    end.

Notation "x <- m ;; k" := (bind m (fun x => k))
  (at level 61, m at next level, right associativity).
Notation "m ;;; k" := (bind m (fun _ => k))
  (at level 61, right associativity).

(** [try: body  except <class> as e: handler e]. *)
Definition try_except {A} (body : Py A) (caught : exn -> bool)
    (handler : exn -> Py A) : Py A :=
  fun w =>
    match body w with
    | (Returns a, w') => (Returns a, w')
    | (Raises e, w') => if caught e then handler e w' else (Raises e, w')
    end.

(** An expression that may raise but touches nothing. *)
Definition eval {A} (o : outcome A) : Py A := fun w => (o, w).

(** [self.bucket]. *)
Definition self_bucket : Py string := fun w => (Returns (bucket (self w)), w).

(** [self.s3.<method>(...)]. *)
Definition s3_call (rq : Request) : Py pyval :=
  fun w =>
    let (r, remote') := boto (s3 (self w)) rq (remote w) in
    (r, {| self := self w;
           remote := remote';
           stdout := stdout w;
           sent := sent w ++ [rq] |}).

(** [print(line)]. *)
Definition print (line : string) : Py unit :=
  fun w =>
    (Returns tt, {| self := self w;
                    remote := remote w;
                    stdout := stdout w ++ [line];
                    sent := sent w |}).

(** [e.response]: only a [ClientError] has the attribute. *)
Definition exn_response (e : exn) : outcome pyval :=
  match e with
  | ClientError _ r => Returns r
  | _ => Raises (AttributeError "response")
  end.

(** [f"{v}"]. *)
Definition py_str (v : pyval) : string :=
  match v with
  | PNone => "None"
  | PBool true => "True"
  | PBool false => "False"
  | PInt z => NilZero.string_of_int (Z.to_int z)
  | PStr s => s
  | PList _ | PDict _ => py_repr v
  end.

(** [[f(x) for x in l]]. *)
Fixpoint comprehension (f : pyval -> outcome pyval) (l : list pyval)
  : outcome (list pyval) :=
  match l with
  | [] => Returns []
  | x :: rest =>
      match f x with
      | Raises e => Raises e
      | Returns y =>
          match comprehension f rest with
          | Raises e => Raises e
          | Returns ys => Returns (y :: ys)
          end
      end
  end.

(** *** [set_bucket_policy] *)

Definition arn (b : string) : string := "arn:aws:s3:::" ++ b.

(** The dict literal [policy] of [set_bucket_policy]. *)
Definition policy (b : string) : pyval :=
  PDict
    [("Version", PStr "2012-10-17");
     ("Statement",
      PList
        [PDict [("Sid", PStr "PublicRead");
                ("Effect", PStr "Allow");
                ("Principal", PStr "*");
                ("Action", PStr "s3:GetObject");
                ("Resource", PStr (arn b ++ "/*"))];
         PDict [("Sid", PStr "FullAccessForUserM");
                ("Effect", PStr "Allow");
                ("Principal", PDict [("AWS", PStr "user_m")]);
                ("Action", PStr "s3:*");
                ("Resource", PList [PStr (arn b); PStr (arn b ++ "/*")])];
         PDict [("Sid", PStr "ReadOnlyForUserB");
                ("Effect", PStr "Allow");
                ("Principal", PDict [("AWS", PStr "user_b")]);
                ("Action", PList [PStr "s3:GetObject"; PStr "s3:ListBucket"]);
                ("Resource", PList [PStr (arn b); PStr (arn b ++ "/*")])]])].

Definition set_bucket_policy : Py pyval :=
  b <- self_bucket ;;
  let policy := policy b in
  b' <- self_bucket ;;
  s3_call (put_bucket_policy b' (json_dumps policy)) ;;;
  print "✅ Политика обновлена с конкретными пользователями" ;;;
  ret PNone.

(** *** [enable_bucket_versioning] *)

Definition enable_bucket_versioning : Py pyval :=
  try_except
    (b <- self_bucket ;;
     s3_call (put_bucket_versioning b (PDict [("Status", PStr "Enabled")])) ;;;
     b' <- self_bucket ;;
     print ("✅ Версионирование включено для бакета '" ++ b' ++ "'") ;;;
     ret (PBool true))
    is_ClientError
    (fun e =>
       response <- eval (exn_response e) ;;
       error <- eval (py_getitem response "Error") ;;
       error_code <- eval (py_getitem error "Code") ;;
       (if py_eq_str error_code "NoSuchBucket" then
          b <- self_bucket ;;
          print ("❌ Бакет '" ++ b ++ "' не найден")
        else if py_eq_str error_code "AccessDenied" then
          b <- self_bucket ;;
          print ("❌ Доступ запрещен для бакета '" ++ b ++ "'")
        else
          print ("❌ Ошибка включения версионирования: " ++ py_str error_code)) ;;;
       ret (PBool false)).

(** *** [set_bucket_lifecycle_policy] *)

(** The default of the parameter [expiration_days]. *)
Definition default_expiration_days : pyval := PInt 3.

(** The value bound to the parameter: [arg] is [None] when the caller
    omits the argument. *)
Definition bound_expiration_days (arg : option pyval) : pyval :=
  match arg with
  | Some v => v
  | None => default_expiration_days
  end.

(** The dict literal [lifecycle_config]. *)
Definition lifecycle_config (expiration_days : pyval) : pyval :=
  PDict [("Rules",
          PList [PDict [("Status", PStr "Enabled");
                        ("Filter", PDict [("Prefix", PStr "")]);
                        ("Expiration", PDict [("Days", expiration_days)])]])].

Definition set_bucket_lifecycle_policy (arg : option pyval) : Py pyval :=
  let expiration_days := bound_expiration_days arg in
  let lifecycle_config := lifecycle_config expiration_days in
  try_except
    (b <- self_bucket ;;
     s3_call (put_bucket_lifecycle_configuration b lifecycle_config) ;;;
     print "✅ Lifecycle policy настроена успешно" ;;;
     b' <- self_bucket ;;
     print ("   Объекты в бакете '" ++ b' ++
            "' будут автоматически удаляться через " ++
            py_str expiration_days ++ " дней") ;;;
     ret (PBool true))
    is_Exception
    (fun e =>
       print ("❌ Ошибка настройки lifecycle policy: " ++ exn_str e) ;;;
       ret (PBool false)).

(** *** [upload], [download] *)

Definition upload (file_path object_name : string) : Py pyval :=
  b <- self_bucket ;;
  s3_call (upload_file file_path b object_name) ;;;
  print ("Загружено: " ++ object_name) ;;;
  ret PNone.

Definition download (object_name save_path : string) : Py pyval :=
  b <- self_bucket ;;
  s3_call (download_file b object_name save_path) ;;;
  print ("Скачано: " ++ object_name) ;;;
  ret PNone.

(** *** [list_files] *)

Definition list_files : Py pyval :=
  b <- self_bucket ;;
  response <- s3_call (list_objects_v2 b) ;;
  absent <- eval (match py_contains "Contents" response with
                  | Returns found => Returns (negb found)
                  | Raises e => Raises e
                  end) ;;
  if absent : bool then ret (PList [])
  else
    contents <- eval (py_getitem response "Contents") ;;
    objs <- eval (py_iter contents) ;;
    keys <- eval (comprehension (fun obj => py_getitem obj "Key") objs) ;;
    ret (PList keys).

(** *** [file_exists] *)

Definition file_exists (object_name : string) : Py pyval :=
  try_except
    (b <- self_bucket ;;
     s3_call (head_object b object_name) ;;;
     ret (PBool true))
    is_ClientError
    (fun _ => ret (PBool false)).

(** *** The public surface, as one type *)

Inductive Operation : Type :=
| OpSetBucketPolicy
| OpEnableBucketVersioning
| OpSetBucketLifecyclePolicy (expiration_days : option pyval)
| OpUpload (file_path object_name : string)
| OpDownload (object_name save_path : string)
| OpListFiles
| OpFileExists (object_name : string).

Definition perform (op : Operation) : Py pyval :=
  match op with
  | OpSetBucketPolicy => set_bucket_policy
  | OpEnableBucketVersioning => enable_bucket_versioning
  | OpSetBucketLifecyclePolicy d => set_bucket_lifecycle_policy d
  | OpUpload f o => upload f o
  | OpDownload o f => download o f
  | OpListFiles => list_files
  | OpFileExists o => file_exists o
  end.

(** A caller that performs one operation after another, catching
    whatever an operation raises and going on. *)
Fixpoint session (ops : list Operation) (w : World) : World :=
  match ops with
  | [] => w
  | op :: rest => session rest (snd (perform op w))
  end.

(** *** Vocabulary of the statements *)

(** The world once [rq] was made on [self.s3] and the service moved to
    [remote']: one more request on record, nothing printed. *)
Definition called (w : World) (rq : Request) (remote' : Remote) : World :=
  {| self := self w;
     remote := remote';
     stdout := stdout w;
     sent := sent w ++ [rq] |}.

(** The world once [lines] were printed. *)
Definition wrote (w : World) (lines : list string) : World :=
  {| self := self w;
     remote := remote w;
     stdout := stdout w ++ lines;
     sent := sent w |}.

(** The three classes of a failed versioning request, in the words of
    the specification, and the report printed for each. *)
Inductive ErrorKind : Type :=
| BucketNotFound
| AccessDenied
| Other.

Definition classify (error_code : pyval) : ErrorKind :=
  match error_code with
  | PStr code =>
      if String.eqb code "NoSuchBucket" then BucketNotFound
      else if String.eqb code "AccessDenied" then AccessDenied
      else Other
  | _ => Other
  end.

Definition report (b : string) (error_code : pyval) (k : ErrorKind) : string :=
  match k with
  | BucketNotFound => "❌ Бакет '" ++ b ++ "' не найден"
  | AccessDenied => "❌ Доступ запрещен для бакета '" ++ b ++ "'"
  | Other => "❌ Ошибка включения версионирования: " ++ py_str error_code
  end.

(** The requests of the three configuration methods. *)
Definition versioning_request (w : World) : Request :=
  put_bucket_versioning (bucket (self w)) (PDict [("Status", PStr "Enabled")]).

Definition lifecycle_request (w : World) (arg : option pyval) : Request :=
  put_bucket_lifecycle_configuration
    (bucket (self w)) (lifecycle_config (bound_expiration_days arg)).

Definition policy_request (w : World) : Request :=
  put_bucket_policy (bucket (self w)) (json_dumps (policy (bucket (self w)))).

(** The [Days] of the only rule of a lifecycle request. *)
Definition days_sent (rq : Request) : option pyval :=
  match rq with
  | put_bucket_lifecycle_configuration _ (PDict d) =>
      match dict_get "Rules" d with
      | Some (PList [PDict rule]) =>
          match dict_get "Expiration" rule with
          | Some (PDict expiration) => dict_get "Days" expiration
          | _ => None
          end
      | _ => None
      end
  | _ => None
  end.


(** The bucket a request names. *)
Definition request_bucket (rq : Request) : string :=
  match rq with
  | put_bucket_policy b _ => b
  | put_bucket_versioning b _ => b
  | put_bucket_lifecycle_configuration b _ => b
  | upload_file _ b _ => b
  | download_file b _ _ => b
  | list_objects_v2 b => b
  | head_object b _ => b
  end.

(** The two operations that only ask ([list_files], [file_exists]) and
    the two requests that only read the bucket's index. *)
Definition is_query (op : Operation) : bool :=
  match op with
  | OpListFiles | OpFileExists _ => true
  | _ => false
  end.

Definition is_probe (rq : Request) : bool :=
  match rq with
  | list_objects_v2 _ | head_object _ _ => true
  | _ => false
  end.

(** The kind of value an operation hands back when it returns. *)
Definition returns_kind (op : Operation) (v : pyval) : Prop :=
  match op with
  | OpSetBucketPolicy | OpUpload _ _ | OpDownload _ _ => v = PNone
  | OpEnableBucketVersioning | OpSetBucketLifecyclePolicy _ | OpFileExists _ =>
      exists b, v = PBool b
  | OpListFiles => exists keys, v = PList keys
  end.

(** What the service answers to [rq] in world [w]. *)
Definition answer (w : World) (rq : Request) : outcome pyval * Remote :=
  boto (s3 (self w)) rq (remote w).

(** The state the service reaches from [r] by serving the requests
    [rqs], one after the other, on the client handle [c]. *)
Definition serve (c : Boto3Client) (rqs : list Request) (r : Remote) : Remote :=
  fold_left (fun r' rq => snd (boto c rq r')) rqs r.

(** ** Properties *)

(** Unfolds a method down to the service call. *)
Ltac open_method :=
  unfold set_bucket_policy, enable_bucket_versioning,
    set_bucket_lifecycle_policy, upload, download, list_files, file_exists,
    try_except, bind, self_bucket, s3_call, print, ret, eval, answer,
    versioning_request, lifecycle_request, policy_request, called, wrote in *;
  cbn [fst snd self remote stdout sent] in *.

(** Replaces the service call by its known answer. *)
Ltac answered H := open_method; rewrite H; cbn.

Lemma classify_NoSuchBucket (v : pyval) :
  py_eq_str v "NoSuchBucket" = true -> classify v = BucketNotFound.
Proof.
  destruct v; cbn [py_eq_str classify]; try discriminate.
  intros ->. reflexivity.
Qed.

Lemma classify_AccessDenied (v : pyval) :
  py_eq_str v "NoSuchBucket" = false ->
  py_eq_str v "AccessDenied" = true -> classify v = AccessDenied.
Proof.
  destruct v; cbn [py_eq_str classify]; try discriminate.
  intros -> ->. reflexivity.
Qed.

Lemma classify_Other (v : pyval) :
  py_eq_str v "NoSuchBucket" = false ->
  py_eq_str v "AccessDenied" = false -> classify v = Other.
Proof.
  destruct v; cbn [py_eq_str classify]; try reflexivity.
  intros -> ->. reflexivity.
Qed.

(** The report of a failed versioning request is the one of its class. *)
Lemma versioning_handler_report (b : string) (code : pyval) :
  (if py_eq_str code "NoSuchBucket" then "❌ Бакет '" ++ b ++ "' не найден"
   else if py_eq_str code "AccessDenied"
        then "❌ Доступ запрещен для бакета '" ++ b ++ "'"
        else "❌ Ошибка включения версионирования: " ++ py_str code)%string
  = report b code (classify code).
Proof.
  destruct (py_eq_str code "NoSuchBucket") eqn:E1.
  - rewrite (classify_NoSuchBucket _ E1). reflexivity.
  - destruct (py_eq_str code "AccessDenied") eqn:E2.
    + rewrite (classify_AccessDenied _ E1 E2). reflexivity.
    + rewrite (classify_Other _ E1 E2). reflexivity.
Qed.

(** [classify] sorts the codes as the specification words it. *)
Lemma classify_spec (code : pyval) :
  (classify code = BucketNotFound <-> code = PStr "NoSuchBucket")
  /\ (classify code = AccessDenied <-> code = PStr "AccessDenied")
  /\ (classify code = Other <->
        code <> PStr "NoSuchBucket" /\ code <> PStr "AccessDenied").
Proof.
  destruct code as [| b | z | s | l | d];
    try (cbn [classify]; repeat split; intros; discriminate).
  cbn [classify].
  destruct (String.eqb_spec s "NoSuchBucket") as [-> | Hn].
  { repeat split; intros; try discriminate; try reflexivity.
    destruct H as [H _]. now elim H. }
  destruct (String.eqb_spec s "AccessDenied") as [-> | Ha].
  { repeat split; intros; try discriminate; try reflexivity.
    destruct H as [_ H]. now elim H. }
  repeat split; intros; try discriminate; try congruence.
Qed.

(** C1 (amended).  [enable_bucket_versioning] returns [True] when the
    set-bucket-versioning call succeeds.  When the call fails with a
    [ClientError] whose response carries [Error]/[Code], the method
    catches it, prints exactly one report, the one of the class of the
    code (bucket-not-found for [NoSuchBucket], access-denied for
    [AccessDenied], other for anything else), and returns [False].  A
    failure that is not a [ClientError] is not caught: it reaches the
    caller unchanged and nothing is printed. *)
Theorem enable_bucket_versioning_outcomes (w : World) :
  (forall v remote',
      answer w (versioning_request w) = (Returns v, remote') ->
      fst (enable_bucket_versioning w) = Returns (PBool true))
  /\
  (forall text response error code remote',
      answer w (versioning_request w)
        = (Raises (ClientError text response), remote') ->
      py_getitem response "Error" = Returns error ->
      py_getitem error "Code" = Returns code ->
      enable_bucket_versioning w
        = (Returns (PBool false),
           wrote (called w (versioning_request w) remote')
                 [report (bucket (self w)) code (classify code)])
      /\ (classify code = BucketNotFound <-> code = PStr "NoSuchBucket")
      /\ (classify code = AccessDenied <-> code = PStr "AccessDenied")
      /\ (classify code = Other <->
            code <> PStr "NoSuchBucket" /\ code <> PStr "AccessDenied"))
  /\
  (forall e remote',
      answer w (versioning_request w) = (Raises e, remote') ->
      is_ClientError e = false ->
      enable_bucket_versioning w
        = (Raises e, called w (versioning_request w) remote')).
Proof.
  split; [| split].
  - intros v remote' H. answered H. reflexivity.
  - intros text response error code remote' H Herr Hcode.
    split; [| exact (classify_spec code)].
    answered H. rewrite Herr. cbn. rewrite Hcode. cbn.
    rewrite <- versioning_handler_report.
    destruct (py_eq_str code "NoSuchBucket"); cbn; [reflexivity |].
    destruct (py_eq_str code "AccessDenied"); reflexivity.
  - intros e remote' H He. answered H. rewrite He. reflexivity.
Qed.

(** C2.  Whatever error (instance of [Exception]) the
    set-bucket-lifecycle-configuration call raises,
    [set_bucket_lifecycle_policy] catches it, prints one report and
    returns [False]; and it returns [True] exactly when the call
    succeeds. *)
Theorem set_bucket_lifecycle_policy_swallows (arg : option pyval) (w : World) :
  (forall e remote',
      answer w (lifecycle_request w arg) = (Raises e, remote') ->
      is_Exception e = true ->
      set_bucket_lifecycle_policy arg w
        = (Returns (PBool false),
           wrote (called w (lifecycle_request w arg) remote')
                 ["❌ Ошибка настройки lifecycle policy: " ++ exn_str e]%string))
  /\
  (fst (set_bucket_lifecycle_policy arg w) = Returns (PBool true)
   <-> exists v, fst (answer w (lifecycle_request w arg)) = Returns v).
Proof.
  split.
  - intros e remote' H He. answered H. rewrite He. reflexivity.
  - open_method.
    destruct (boto _ _ _) as [[v | e] remote'] eqn:H; cbn.
    + split; [intros _; exists v; reflexivity | reflexivity].
    + split.
      * destruct (is_Exception e); cbn; discriminate.
      * intros [v Hv]. discriminate.
Qed.

(** C3 (amended).  [file_exists] returns [True] when the [head_object]
    probe succeeds and [False] when the probe fails with a
    [ClientError] (not-found and access-denied responses are such);
    a probe failure that is not a [ClientError] is not caught and
    reaches the caller. *)
Theorem file_exists_outcomes (object_name : string) (w : World) :
  (forall v remote',
      answer w (head_object (bucket (self w)) object_name)
        = (Returns v, remote') ->
      file_exists object_name w
        = (Returns (PBool true),
           called w (head_object (bucket (self w)) object_name) remote'))
  /\
  (forall e remote',
      answer w (head_object (bucket (self w)) object_name)
        = (Raises e, remote') ->
      is_ClientError e = true ->
      file_exists object_name w
        = (Returns (PBool false),
           called w (head_object (bucket (self w)) object_name) remote'))
  /\
  (forall e remote',
      answer w (head_object (bucket (self w)) object_name)
        = (Raises e, remote') ->
      is_ClientError e = false ->
      file_exists object_name w
        = (Raises e,
           called w (head_object (bucket (self w)) object_name) remote')).
Proof.
  split; [| split].
  - intros v remote' H. answered H. reflexivity.
  - intros e remote' H He. answered H. rewrite He. reflexivity.
  - intros e remote' H He. answered H. rewrite He. reflexivity.
Qed.

(** The keys of a list of listing entries, when every entry has one. *)
Lemma comprehension_keys (objs keys : list pyval) :
  Forall2 (fun obj k => py_getitem obj "Key" = Returns k) objs keys ->
  comprehension (fun obj => py_getitem obj "Key") objs = Returns keys.
Proof.
  induction 1 as [| obj k objs keys Hk _ IH]; cbn.
  - reflexivity.
  - rewrite Hk, IH. reflexivity.
Qed.

(** C4.  [list_files] makes exactly one request, a [list_objects_v2]
    on the bucket.  When the response has no ["Contents"] key the
    result is the empty list; otherwise it is the list of the ["Key"]
    of the entries under ["Contents"] of that response, in their
    order. *)
Theorem list_files_single_page (w : World) :
  sent (snd (list_files w)) = sent w ++ [list_objects_v2 (bucket (self w))]
  /\
  (forall d remote',
      answer w (list_objects_v2 (bucket (self w))) = (Returns (PDict d), remote') ->
      dict_get "Contents" d = None ->
      fst (list_files w) = Returns (PList []))
  /\
  (forall d objs keys remote',
      answer w (list_objects_v2 (bucket (self w))) = (Returns (PDict d), remote') ->
      dict_get "Contents" d = Some (PList objs) ->
      Forall2 (fun obj k => py_getitem obj "Key" = Returns k) objs keys ->
      fst (list_files w) = Returns (PList keys)).
Proof.
  split; [| split].
  - open_method.
    destruct (boto _ _ _) as [[v | e] remote']; cbn; [| reflexivity].
    destruct (py_contains "Contents" v) as [[|] | e]; cbn; try reflexivity.
    destruct (py_getitem v "Contents") as [c | e]; cbn; [| reflexivity].
    destruct (py_iter c) as [l | e]; cbn; [| reflexivity].
    destruct (comprehension _ l); reflexivity.
  - intros d remote' H Hd. answered H. rewrite Hd. reflexivity.
  - intros d objs keys remote' H Hd Hk. answered H. rewrite Hd. cbn.
    rewrite (comprehension_keys _ _ Hk). reflexivity.
Qed.

(** C5.  Whatever the argument and whatever the service answers,
    [set_bucket_lifecycle_policy] sends the service one request, a
    [put_bucket_lifecycle_configuration] on the bucket whose
    configuration has exactly one rule: status [Enabled], filter with
    the empty prefix, expiration after the given number of days, which
    is 3 when the argument is omitted.  The service is left in the
    state in which serving that very request puts it, and the method
    returns [True] exactly when the service accepts that request. *)
Theorem set_bucket_lifecycle_policy_request (arg : option pyval) (w : World) :
  let rq :=
    put_bucket_lifecycle_configuration (bucket (self w))
      (PDict
         [("Rules",
           PList
             [PDict
                [("Status", PStr "Enabled");
                 ("Filter", PDict [("Prefix", PStr "")]);
                 ("Expiration",
                  PDict [("Days", match arg with
                                  | Some days => days
                                  | None => PInt 3
                                  end)])]])]) in
  sent (snd (set_bucket_lifecycle_policy arg w)) = sent w ++ [rq]
  /\ remote (snd (set_bucket_lifecycle_policy arg w)) = snd (answer w rq)
  /\ (fst (set_bucket_lifecycle_policy arg w) = Returns (PBool true)
      <-> exists v, fst (answer w rq) = Returns v).
Proof.
  destruct arg as [days |]; open_method; unfold bound_expiration_days,
    default_expiration_days, lifecycle_config;
    (destruct (boto _ _ _) as [[v | e] remote']; cbn;
     [ repeat split; intros; eauto
     | destruct (is_Exception e); cbn; repeat split; intros;
       try discriminate;
       match goal with H : exists _, _ |- _ => destruct H; discriminate end ]).
Qed.

(** C6.  [set_bucket_lifecycle_policy] does not validate its argument:
    whatever the value (zero and negative integers included) one
    request is made, it carries the value as it was given, and it is
    the service that serves it: the service ends in the state in which
    that request puts it.  The verdict is the service's alone: the
    method returns [True] exactly when the service accepts the request,
    so no value is turned down, or waved through, locally. *)
Theorem set_bucket_lifecycle_policy_no_validation (days : pyval) (w : World) :
  (exists rq,
      sent (snd (set_bucket_lifecycle_policy (Some days) w)) = sent w ++ [rq]
      /\ days_sent rq = Some days
      /\ remote (snd (set_bucket_lifecycle_policy (Some days) w))
         = snd (answer w rq)
      /\ (fst (set_bucket_lifecycle_policy (Some days) w) = Returns (PBool true)
          <-> exists v, fst (answer w rq) = Returns v))
  /\
  (forall v remote',
      answer w (lifecycle_request w (Some days)) = (Returns v, remote') ->
      set_bucket_lifecycle_policy (Some days) w
      = (Returns (PBool true),
         wrote (called w (lifecycle_request w (Some days)) remote')
               ["✅ Lifecycle policy настроена успешно";
                ("   Объекты в бакете '" ++ bucket (self w) ++
                 "' будут автоматически удаляться через " ++
                 py_str days ++ " дней")%string])).
Proof.
  split.
  - exists (lifecycle_request w (Some days)).
    split; [| split; [reflexivity |]].
    + open_method.
      destruct (boto _ _ _) as [[v | e] remote']; cbn; [reflexivity |].
      destruct (is_Exception e); reflexivity.
    + open_method.
      destruct (boto _ _ _) as [[v | e] remote']; cbn.
      * repeat split; intros; eauto.
      * destruct (is_Exception e); cbn; repeat split; intros;
          try discriminate;
          match goal with H : exists _, _ |- _ => destruct H; discriminate end.
  - intros v remote' H. answered H. rewrite <- app_assoc. reflexivity.
Qed.


(** C8.  [upload] and [download] handle no error: an exception of the
    transfer call reaches the caller unchanged, and nothing is
    printed. *)
Theorem transfer_errors_propagate
    (local_path object_name : string) (e : exn) (w : World) :
  (forall remote',
      answer w (upload_file local_path (bucket (self w)) object_name)
        = (Raises e, remote') ->
      upload local_path object_name w
        = (Raises e,
           called w (upload_file local_path (bucket (self w)) object_name)
                  remote'))
  /\
  (forall remote',
      answer w (download_file (bucket (self w)) object_name local_path)
        = (Raises e, remote') ->
      download object_name local_path w
        = (Raises e,
           called w (download_file (bucket (self w)) object_name local_path)
                  remote')).
Proof.
  split; intros remote' H; answered H; reflexivity.
Qed.

(** No operation assigns to an attribute of the instance. *)
Lemma perform_keeps_self (op : Operation) (w : World) :
  self (snd (perform op w)) = self w.
Proof.
  destruct op; cbn [perform]; open_method.
  - destruct (boto _ _ _) as [[v | e] remote']; reflexivity.
  - destruct (boto _ _ _) as [[v | e] remote']; cbn; [reflexivity |].
    destruct (is_ClientError e); cbn; [| reflexivity].
    destruct (exn_response e) as [r | e1]; cbn; [| reflexivity].
    destruct (py_getitem r "Error") as [err | e1]; cbn; [| reflexivity].
    destruct (py_getitem err "Code") as [code | e1]; cbn; [| reflexivity].
    destruct (py_eq_str code "NoSuchBucket"); cbn; [reflexivity |].
    destruct (py_eq_str code "AccessDenied"); reflexivity.
  - destruct (boto _ _ _) as [[v | e] remote']; cbn; [reflexivity |].
    destruct (is_Exception e); reflexivity.
  - destruct (boto _ _ _) as [[v | e] remote']; reflexivity.
  - destruct (boto _ _ _) as [[v | e] remote']; reflexivity.
  - destruct (boto _ _ _) as [[v | e] remote']; cbn; [| reflexivity].
    destruct (py_contains "Contents" v) as [[|] | e]; cbn; try reflexivity.
    destruct (py_getitem v "Contents") as [c | e]; cbn; [| reflexivity].
    destruct (py_iter c) as [l | e]; cbn; [| reflexivity].
    destruct (comprehension _ l); reflexivity.
  - destruct (boto _ _ _) as [[v | e] remote']; cbn; [reflexivity |].
    destruct (is_ClientError e); reflexivity.
Qed.

(** C9.  The configuration kept in the instance (bucket name and client
    handle) is the one [__init__] stored, after any sequence of
    operations with any arguments and any behaviour of the service:
    no operation changes an attribute, so none keeps a listing, a
    policy or object content in the instance. *)
Theorem configuration_immutable
    (endpoint access_key secret_key bucket_name : string)
    (ops : list Operation)
    (remote0 : Remote) (out0 : list string) (sent0 : list Request) :
  self (session ops
          {| self := S3Client_init endpoint access_key secret_key bucket_name;
             remote := remote0;
             stdout := out0;
             sent := sent0 |})
  = S3Client_init endpoint access_key secret_key bucket_name.
Proof.
  set (w0 := {| self := _ |}).
  change (self (session ops w0) = self w0).
  generalize w0. clear w0.
  induction ops as [| op ops IH]; intros w; cbn [session].
  - reflexivity.
  - rewrite IH. apply perform_keeps_self.
Qed.

(** C10.  When the transfer call succeeds, [upload] and [download]
    return [None], after printing one line that names the object. *)
Theorem transfer_returns_None
    (local_path object_name : string) (w : World) :
  (forall v remote',
      answer w (upload_file local_path (bucket (self w)) object_name)
        = (Returns v, remote') ->
      upload local_path object_name w
        = (Returns PNone,
           wrote (called w (upload_file local_path (bucket (self w)) object_name)
                         remote')
                 ["Загружено: " ++ object_name]%string))
  /\
  (forall v remote',
      answer w (download_file (bucket (self w)) object_name local_path)
        = (Returns v, remote') ->
      download object_name local_path w
        = (Returns PNone,
           wrote (called w (download_file (bucket (self w)) object_name local_path)
                         remote')
                 ["Скачано: " ++ object_name]%string)).
Proof.
  split; intros v remote' H; answered H; reflexivity.
Qed.

(** ** Beyond the single outcomes *)

(** X1.  A [ClientError] whose response has no ["Error"] entry, or
    whose ["Error"] has no ["Code"], makes the handler of
    [enable_bucket_versioning] itself fail: a [KeyError] for the
    missing key reaches the caller, and no report is printed. *)
Theorem enable_bucket_versioning_missing_code
    (w : World) (text : string) (d : list (string * pyval))
    (remote' : Remote) :
  answer w (versioning_request w)
    = (Raises (ClientError text (PDict d)), remote') ->
  (dict_get "Error" d = None ->
   enable_bucket_versioning w
     = (Raises (KeyError "Error"),
        called w (versioning_request w) remote'))
  /\
  (forall err,
      dict_get "Error" d = Some (PDict err) ->
      dict_get "Code" err = None ->
      enable_bucket_versioning w
        = (Raises (KeyError "Code"),
           called w (versioning_request w) remote')).
Proof.
  intros H. split.
  - intros Hd. answered H. rewrite Hd. reflexivity.
  - intros err Hd Hc. answered H. rewrite Hd. cbn. rewrite Hc. reflexivity.
Qed.

(** X2.  The flag of [enable_bucket_versioning] can be trusted both
    ways: it is [True] exactly when the request was accepted, and
    [False] only when the request failed with a [ClientError]. *)
Theorem enable_bucket_versioning_flag (w : World) :
  (fst (enable_bucket_versioning w) = Returns (PBool true)
   <-> exists v, fst (answer w (versioning_request w)) = Returns v)
  /\
  (fst (enable_bucket_versioning w) = Returns (PBool false) ->
   exists text response,
     fst (answer w (versioning_request w))
     = Raises (ClientError text response)).
Proof.
  open_method.
  destruct (boto _ _ _) as [[v | e] remote']; cbn.
  - split; [split; [intros _; exists v |]; reflexivity | discriminate].
  - destruct e as [text response | cls text | cls text]; cbn.
    + split.
      * split.
        -- intros Ht. exfalso. revert Ht.
           destruct (py_getitem response "Error") as [err | e1]; cbn;
             [| discriminate].
           destruct (py_getitem err "Code") as [code | e1]; cbn;
             [| discriminate].
           destruct (py_eq_str code "NoSuchBucket"); cbn; [discriminate |].
           destruct (py_eq_str code "AccessDenied"); cbn; discriminate.
        -- intros [v Hv]. discriminate.
      * intros _. exists text, response. reflexivity.
    + split; [split; [discriminate | intros [v Hv]; discriminate]
             | discriminate].
    + split; [split; [discriminate | intros [v Hv]; discriminate]
             | discriminate].
Qed.

(** X3.  The only thing [set_bucket_lifecycle_policy] ever raises is
    what [except Exception] does not cover: an exception of the
    request itself that is no instance of [Exception], passed on
    unchanged with nothing printed. *)
Theorem set_bucket_lifecycle_policy_escapes
    (arg : option pyval) (w : World) (e : exn) :
  fst (set_bucket_lifecycle_policy arg w) = Raises e ->
  is_Exception e = false
  /\ fst (answer w (lifecycle_request w arg)) = Raises e
  /\ stdout (snd (set_bucket_lifecycle_policy arg w)) = stdout w.
Proof.
  open_method.
  destruct (boto _ _ _) as [[v | e0] remote']; cbn; [discriminate |].
  destruct (is_Exception e0) eqn:He0; cbn; [discriminate |].
  intros [= <-]. repeat split. exact He0.
Qed.

(** X4.  [list_files] handles no error of the listing request: the
    exception reaches the caller unchanged and nothing is printed. *)
Theorem list_files_propagates (w : World) (e : exn) (remote' : Remote) :
  answer w (list_objects_v2 (bucket (self w))) = (Raises e, remote') ->
  list_files w
    = (Raises e, called w (list_objects_v2 (bucket (self w))) remote').
Proof.
  intros H. answered H. reflexivity.
Qed.

(** The comprehension stops at the first entry without a key. *)
Lemma comprehension_missing_key
    (pre keys : list pyval) (o : list (string * pyval)) (post : list pyval) :
  Forall2 (fun obj k => py_getitem obj "Key" = Returns k) pre keys ->
  dict_get "Key" o = None ->
  comprehension (fun obj => py_getitem obj "Key") (pre ++ PDict o :: post)
  = Raises (KeyError "Key").
Proof.
  intros Hpre Ho.
  induction Hpre as [| obj k pre keys Hk _ IH]; cbn.
  - rewrite Ho. reflexivity.
  - rewrite Hk, IH. reflexivity.
Qed.

(** What a comprehension returns has one item per input, in order. *)
Lemma comprehension_returns
    (f : pyval -> outcome pyval) (l ys : list pyval) :
  comprehension f l = Returns ys ->
  Forall2 (fun x y => f x = Returns y) l ys.
Proof.
  revert ys.
  induction l as [| x l IH]; cbn; intros ys H.
  - injection H as <-. constructor.
  - destruct (f x) as [y | e] eqn:Hx; [| discriminate].
    destruct (comprehension f l) as [ys' | e]; [| discriminate].
    injection H as <-. constructor; [exact Hx | apply IH; reflexivity].
Qed.

(** X5.  One listing entry without a ["Key"] spoils the whole
    listing: [list_files] raises [KeyError] and hands back no partial
    list, however many well-formed entries come before or after. *)
Theorem list_files_entry_without_key
    (w : World) (d o : list (string * pyval)) (pre post keys : list pyval)
    (remote' : Remote) :
  answer w (list_objects_v2 (bucket (self w))) = (Returns (PDict d), remote') ->
  dict_get "Contents" d = Some (PList (pre ++ PDict o :: post)) ->
  Forall2 (fun obj k => py_getitem obj "Key" = Returns k) pre keys ->
  dict_get "Key" o = None ->
  list_files w
    = (Raises (KeyError "Key"),
       called w (list_objects_v2 (bucket (self w))) remote').
Proof.
  intros H Hd Hpre Ho. answered H. rewrite Hd. cbn.
  rewrite (comprehension_missing_key _ _ _ _ Hpre Ho). reflexivity.
Qed.

(** X6.  Whenever [list_files] returns on a response with a list under
    ["Contents"], the result is a list with exactly one item per entry,
    the entry's ["Key"], in the order of the entries: nothing is
    dropped, repeated, sorted or filtered. *)
Theorem list_files_result_shape
    (w : World) (d : list (string * pyval)) (objs : list pyval)
    (remote' : Remote) (v : pyval) :
  answer w (list_objects_v2 (bucket (self w))) = (Returns (PDict d), remote') ->
  dict_get "Contents" d = Some (PList objs) ->
  fst (list_files w) = Returns v ->
  exists keys,
    v = PList keys
    /\ length keys = length objs
    /\ Forall2 (fun obj k => py_getitem obj "Key" = Returns k) objs keys.
Proof.
  intros H Hd. answered H. rewrite Hd. cbn.
  destruct (comprehension _ objs) as [keys | e] eqn:Hc; cbn; [| discriminate].
  intros [= <-]. exists keys.
  pose proof (comprehension_returns _ _ _ Hc) as HF.
  split; [reflexivity | split; [| exact HF]].
  symmetry. exact (Forall2_length HF).
Qed.

(** Every operation makes exactly one request, on the bucket of the
    instance, whatever the service answers, and leaves the service in
    the state in which serving that request puts it. *)
Lemma perform_one_request (op : Operation) (w : World) :
  exists rq,
    sent (snd (perform op w)) = sent w ++ [rq]
    /\ request_bucket rq = bucket (self w)
    /\ (is_query op = true -> is_probe rq = true)
    /\ remote (snd (perform op w)) = snd (answer w rq).
Proof.
  destruct op; cbn [perform is_query]; open_method.
  - exists (put_bucket_policy (bucket (self w))
              (json_dumps (policy (bucket (self w))))).
    destruct (boto _ _ _) as [[v | e] remote'];
      repeat split; discriminate.
  - exists (put_bucket_versioning (bucket (self w))
              (PDict [("Status", PStr "Enabled")])).
    destruct (boto _ _ _) as [[v | e] remote']; cbn;
      [repeat split; discriminate |].
    destruct (is_ClientError e); cbn; [| repeat split; discriminate].
    destruct (exn_response e) as [r | e1]; cbn;
      [| repeat split; discriminate].
    destruct (py_getitem r "Error") as [err | e1]; cbn;
      [| repeat split; discriminate].
    destruct (py_getitem err "Code") as [code | e1]; cbn;
      [| repeat split; discriminate].
    destruct (py_eq_str code "NoSuchBucket"); cbn;
      [repeat split; discriminate |].
    destruct (py_eq_str code "AccessDenied"); repeat split; discriminate.
  - exists (put_bucket_lifecycle_configuration (bucket (self w))
              (lifecycle_config (bound_expiration_days expiration_days))).
    destruct (boto _ _ _) as [[v | e] remote']; cbn;
      [repeat split; discriminate |].
    destruct (is_Exception e); repeat split; discriminate.
  - exists (upload_file file_path (bucket (self w)) object_name).
    destruct (boto _ _ _) as [[v | e] remote'];
      repeat split; discriminate.
  - exists (download_file (bucket (self w)) object_name save_path).
    destruct (boto _ _ _) as [[v | e] remote'];
      repeat split; discriminate.
  - exists (list_objects_v2 (bucket (self w))).
    destruct (boto _ _ _) as [[v | e] remote']; cbn;
      [| repeat split].
    destruct (py_contains "Contents" v) as [[|] | e]; cbn;
      try (repeat split; fail).
    destruct (py_getitem v "Contents") as [c | e]; cbn; [| repeat split].
    destruct (py_iter c) as [l | e]; cbn; [| repeat split].
    destruct (comprehension _ l); repeat split.
  - exists (head_object (bucket (self w)) object_name).
    destruct (boto _ _ _) as [[v | e] remote']; cbn; [repeat split |].
    destruct (is_ClientError e); repeat split.
Qed.

(** X7.  No retry, no skipped call: a session of [n] operations makes
    exactly [n] requests, whatever succeeds or fails on the way; every
    one of them names the bucket the instance was built with; and the
    service has served every one of them, in order, on the client
    handle of the instance: it ends in the state that serving these
    [n] requests one after the other leads to. *)
Theorem session_one_request_each (ops : list Operation) (w : World) :
  exists news,
    sent (session ops w) = sent w ++ news
    /\ length news = length ops
    /\ Forall (fun rq => request_bucket rq = bucket (self w)) news
    /\ remote (session ops w) = serve (s3 (self w)) news (remote w).
Proof.
  revert w.
  induction ops as [| op ops IH]; intros w; cbn [session].
  - exists []. rewrite app_nil_r. repeat split. constructor.
  - destruct (perform_one_request op w) as (rq & Hrq & Hb & _ & Hr).
    destruct (IH (snd (perform op w))) as (news & Hs & Hl & Hall & Hserve).
    exists (rq :: news).
    rewrite Hs, Hrq, <- app_assoc. cbn [app length].
    rewrite perform_keeps_self in Hall, Hserve.
    split; [reflexivity | split; [now f_equal | split]].
    + constructor; assumption.
    + rewrite Hserve, Hr. reflexivity.
Qed.

(** The two asking operations print nothing. *)
Lemma query_is_quiet (op : Operation) (w : World) :
  is_query op = true -> stdout (snd (perform op w)) = stdout w.
Proof.
  destruct op; cbn [is_query]; try discriminate; intros _;
    cbn [perform]; open_method.
  - destruct (boto _ _ _) as [[v | e] remote']; cbn; [| reflexivity].
    destruct (py_contains "Contents" v) as [[|] | e]; cbn; try reflexivity.
    destruct (py_getitem v "Contents") as [c | e]; cbn; [| reflexivity].
    destruct (py_iter c) as [l | e]; cbn; [| reflexivity].
    destruct (comprehension _ l); reflexivity.
  - destruct (boto _ _ _) as [[v | e] remote']; cbn; [reflexivity |].
    destruct (is_ClientError e); reflexivity.
Qed.

(** X8.  Asking is harmless: a session made of [list_files] and
    [file_exists] calls only sends [list_objects_v2] and [head_object]
    requests, never one that changes the bucket or moves data, and
    prints nothing, whatever the service answers. *)
Theorem queries_only_probe (ops : list Operation) (w : World) :
  forallb is_query ops = true ->
  stdout (session ops w) = stdout w
  /\ exists news,
       sent (session ops w) = sent w ++ news
       /\ forallb is_probe news = true.
Proof.
  revert w.
  induction ops as [| op ops IH]; intros w Hq; cbn [session].
  - split; [reflexivity |]. exists []. rewrite app_nil_r. split; reflexivity.
  - cbn [forallb] in Hq. apply andb_prop in Hq. destruct Hq as [Hop Hops].
    destruct (IH (snd (perform op w)) Hops) as (Hout & news & Hs & Hp).
    destruct (perform_one_request op w) as (rq & Hrq & _ & Hprobe & _).
    split.
    + rewrite Hout. apply query_is_quiet, Hop.
    + exists (rq :: news). rewrite Hs, Hrq, <- app_assoc. cbn.
      split; [reflexivity |]. rewrite (Hprobe Hop), Hp. reflexivity.
Qed.

(** X9.  What a caller gets back when an operation returns:
    [set_bucket_policy], [upload] and [download] give [None];
    [enable_bucket_versioning], [set_bucket_lifecycle_policy] and
    [file_exists] give a [bool]; [list_files] gives a list. *)
Theorem perform_returns_kind (op : Operation) (w : World) (v : pyval) :
  fst (perform op w) = Returns v -> returns_kind op v.
Proof.
  destruct op; cbn [perform returns_kind]; open_method.
  - destruct (boto _ _ _) as [[r | e] remote']; cbn; [| discriminate].
    intros [= <-]. reflexivity.
  - destruct (boto _ _ _) as [[r | e] remote']; cbn.
    + intros [= <-]. eexists. reflexivity.
    + destruct (is_ClientError e); cbn; [| discriminate].
      destruct (exn_response e) as [r | e1]; cbn; [| discriminate].
      destruct (py_getitem r "Error") as [err | e1]; cbn; [| discriminate].
      destruct (py_getitem err "Code") as [code | e1]; cbn; [| discriminate].
      destruct (py_eq_str code "NoSuchBucket"); cbn;
        [intros [= <-]; eexists; reflexivity |].
      destruct (py_eq_str code "AccessDenied"); cbn;
        intros [= <-]; eexists; reflexivity.
  - destruct (boto _ _ _) as [[r | e] remote']; cbn.
    + intros [= <-]. eexists. reflexivity.
    + destruct (is_Exception e); cbn; [| discriminate].
      intros [= <-]. eexists. reflexivity.
  - destruct (boto _ _ _) as [[r | e] remote']; cbn; [| discriminate].
    intros [= <-]. reflexivity.
  - destruct (boto _ _ _) as [[r | e] remote']; cbn; [| discriminate].
    intros [= <-]. reflexivity.
  - destruct (boto _ _ _) as [[r | e] remote']; cbn; [| discriminate].
    destruct (py_contains "Contents" r) as [[|] | e]; cbn;
      [| intros [= <-]; eexists; reflexivity | discriminate].
    destruct (py_getitem r "Contents") as [c | e]; cbn; [| discriminate].
    destruct (py_iter c) as [l | e]; cbn; [| discriminate].
    destruct (comprehension _ l); cbn; [| discriminate].
    intros [= <-]. eexists. reflexivity.
  - destruct (boto _ _ _) as [[r | e] remote']; cbn.
    + intros [= <-]. eexists. reflexivity.
    + destruct (is_ClientError e); cbn; [| discriminate].
      intros [= <-]. eexists. reflexivity.
Qed.

End Wrapper.

Arguments mkWorld {Remote} self remote stdout sent.
Arguments self {Remote} w.
Arguments remote {Remote} w.
Arguments stdout {Remote} w.
Arguments sent {Remote} w.
Arguments called {Remote} w rq remote'.
Arguments wrote {Remote} w lines.
Arguments answer {Remote} boto w rq.
Arguments serve {Remote} boto c rqs r.
Arguments versioning_request {Remote} w.
Arguments lifecycle_request {Remote} w arg.
Arguments policy_request {Remote} json_dumps w.
Arguments set_bucket_policy {Remote} boto json_dumps w.
Arguments enable_bucket_versioning {Remote} boto py_repr w.
Arguments set_bucket_lifecycle_policy {Remote} boto py_repr arg w.
Arguments upload {Remote} boto file_path object_name w.
Arguments download {Remote} boto object_name save_path w.
Arguments list_files {Remote} boto w.
Arguments file_exists {Remote} boto object_name w.
Arguments perform {Remote} boto json_dumps py_repr op w.
Arguments session {Remote} boto json_dumps py_repr ops w.

(** ** The statements on the sample services *)

(** C1, on three services: one that accepts the request, one that
    answers [NoSuchBucket], one that cannot be reached. *)
Lemma enable_bucket_versioning_outcomes_witness :
  fst (enable_bucket_versioning healthy sample_repr
         (mkWorld sample_client 0 [] []))
  = Returns (PBool true)
  /\
  enable_bucket_versioning (failing no_such_bucket) sample_repr
    (mkWorld sample_client 0 [] [])
  = (Returns (PBool false),
     mkWorld sample_client 1
       ["❌ Бакет 'bucketmaks' не найден"]
       [put_bucket_versioning "bucketmaks" (PDict [("Status", PStr "Enabled")])])
  /\
  enable_bucket_versioning (failing endpoint_connection_error) sample_repr
    (mkWorld sample_client 0 [] [])
  = (Raises endpoint_connection_error,
     mkWorld sample_client 1 []
       [put_bucket_versioning "bucketmaks" (PDict [("Status", PStr "Enabled")])]).
Proof.
  split; [| split].
  - eapply (proj1 (enable_bucket_versioning_outcomes
                     nat healthy sample_repr (mkWorld sample_client 0 [] []))).
    reflexivity.
  - eapply (proj1 (proj2 (enable_bucket_versioning_outcomes
                            nat (failing no_such_bucket) sample_repr
                            (mkWorld sample_client 0 [] [])))
              _ _ _ _ _ eq_refl eq_refl eq_refl).
  - eapply (proj2 (proj2 (enable_bucket_versioning_outcomes
                            nat (failing endpoint_connection_error) sample_repr
                            (mkWorld sample_client 0 [] [])))
              _ _ eq_refl eq_refl).
Defined.

(** C1 as stated fails: the set-bucket-versioning call fails with an
    [EndpointConnectionError], and [enable_bucket_versioning] raises it
    to the caller instead of returning [False]. *)
Lemma enable_bucket_versioning_connection_error_escapes :
  fst (answer (failing endpoint_connection_error)
         (mkWorld sample_client 0 [] [])
         (versioning_request (mkWorld sample_client 0 [] [])))
  = Raises endpoint_connection_error
  /\
  fst (enable_bucket_versioning (failing endpoint_connection_error) sample_repr
         (mkWorld sample_client 0 [] []))
  = Raises endpoint_connection_error
  /\
  fst (enable_bucket_versioning (failing endpoint_connection_error) sample_repr
         (mkWorld sample_client 0 [] []))
  <> Returns (PBool false).
Proof.
  repeat split. discriminate.
Qed.

(** C2, on a service that cannot be reached and on one that accepts
    the configuration. *)
Lemma set_bucket_lifecycle_policy_swallows_witness :
  set_bucket_lifecycle_policy (failing endpoint_connection_error) sample_repr
    None (mkWorld sample_client 0 [] [])
  = (Returns (PBool false),
     mkWorld sample_client 1
       ["❌ Ошибка настройки lifecycle policy: Could not connect to the endpoint URL"]
       [put_bucket_lifecycle_configuration "bucketmaks"
          (lifecycle_config (PInt 3))])
  /\
  fst (set_bucket_lifecycle_policy healthy sample_repr
         (Some (PInt 30)) (mkWorld sample_client 0 [] []))
  = Returns (PBool true).
Proof.
  split.
  - eapply (proj1 (set_bucket_lifecycle_policy_swallows
                     nat (failing endpoint_connection_error) sample_repr
                     None (mkWorld sample_client 0 [] []))
              _ _ eq_refl eq_refl).
  - eapply (proj2 (proj2 (set_bucket_lifecycle_policy_swallows
                            nat healthy sample_repr
                            (Some (PInt 30)) (mkWorld sample_client 0 [] [])))).
    eexists. reflexivity.
Defined.

(** C3, on a service where the object is there, one that answers 404,
    and one that cannot be reached. *)
Lemma file_exists_outcomes_witness :
  fst (file_exists healthy "sales_data.csv" (mkWorld sample_client 0 [] []))
  = Returns (PBool true)
  /\
  fst (file_exists (failing not_found_404) "sales_data.csv"
         (mkWorld sample_client 0 [] []))
  = Returns (PBool false)
  /\
  fst (file_exists (failing endpoint_connection_error) "sales_data.csv"
         (mkWorld sample_client 0 [] []))
  = Raises endpoint_connection_error.
Proof.
  split; [| split].
  - exact (f_equal fst
             (proj1 (file_exists_outcomes nat healthy "sales_data.csv"
                       (mkWorld sample_client 0 [] []))
                _ _ eq_refl)).
  - exact (f_equal fst
             (proj1 (proj2 (file_exists_outcomes nat (failing not_found_404)
                              "sales_data.csv" (mkWorld sample_client 0 [] [])))
                _ _ eq_refl eq_refl)).
  - exact (f_equal fst
             (proj2 (proj2 (file_exists_outcomes nat
                              (failing endpoint_connection_error)
                              "sales_data.csv" (mkWorld sample_client 0 [] [])))
                _ _ eq_refl eq_refl)).
Defined.

(** C3 as stated fails: the probe fails with a network error (an
    [EndpointConnectionError]), and [file_exists] raises it to the
    caller instead of returning [False]. *)
Lemma file_exists_connection_error_escapes :
  fst (answer (failing endpoint_connection_error)
         (mkWorld sample_client 0 [] [])
         (head_object "bucketmaks" "sales_data.csv"))
  = Raises endpoint_connection_error
  /\
  fst (file_exists (failing endpoint_connection_error) "sales_data.csv"
         (mkWorld sample_client 0 [] []))
  = Raises endpoint_connection_error
  /\
  fst (file_exists (failing endpoint_connection_error) "sales_data.csv"
         (mkWorld sample_client 0 [] []))
  <> Returns (PBool false).
Proof.
  repeat split. discriminate.
Qed.

(** C4, on a bucket with two objects and on an empty bucket. *)
Lemma list_files_single_page_witness :
  fst (list_files healthy (mkWorld sample_client 0 [] []))
  = Returns (PList [PStr "a.csv"; PStr "b.csv"])
  /\
  fst (list_files empty_bucket (mkWorld sample_client 0 [] []))
  = Returns (PList [])
  /\
  sent (snd (list_files healthy (mkWorld sample_client 0 [] [])))
  = [list_objects_v2 "bucketmaks"].
Proof.
  split; [| split].
  - eapply (proj2 (proj2 (list_files_single_page nat healthy
                            (mkWorld sample_client 0 [] [])))
              _ _ _ _ eq_refl eq_refl).
    repeat constructor.
  - eapply (proj1 (proj2 (list_files_single_page nat empty_bucket
                            (mkWorld sample_client 0 [] [])))
              _ _ eq_refl eq_refl).
  - exact (proj1 (list_files_single_page nat healthy
                    (mkWorld sample_client 0 [] []))).
Defined.

(** C5, with the argument omitted and a service that accepts. *)
Lemma set_bucket_lifecycle_policy_request_witness :
  sent (snd (set_bucket_lifecycle_policy healthy sample_repr None
               (mkWorld sample_client 0 [] [])))
  = [put_bucket_lifecycle_configuration "bucketmaks"
       (PDict
          [("Rules",
            PList
              [PDict [("Status", PStr "Enabled");
                      ("Filter", PDict [("Prefix", PStr "")]);
                      ("Expiration", PDict [("Days", PInt 3)])]])])]
  /\
  remote (snd (set_bucket_lifecycle_policy healthy sample_repr None
                 (mkWorld sample_client 0 [] [])))
  = 1
  /\
  fst (set_bucket_lifecycle_policy healthy sample_repr None
         (mkWorld sample_client 0 [] []))
  = Returns (PBool true).
Proof.
  destruct (set_bucket_lifecycle_policy_request nat healthy sample_repr None
              (mkWorld sample_client 0 [] [])) as (Hsent & Hremote & Hflag).
  split; [exact Hsent | split; [exact Hremote |]].
  apply Hflag. eexists. reflexivity.
Defined.

(** C6, at zero and at a negative number of days. *)
Lemma set_bucket_lifecycle_policy_no_validation_witness :
  fst (set_bucket_lifecycle_policy healthy sample_repr
         (Some (PInt 0)) (mkWorld sample_client 0 [] []))
  = Returns (PBool true)
  /\
  set_bucket_lifecycle_policy healthy sample_repr
    (Some (PInt (-5))) (mkWorld sample_client 0 [] [])
  = (Returns (PBool true),
     mkWorld sample_client 1
       ["✅ Lifecycle policy настроена успешно";
        "   Объекты в бакете 'bucketmaks' будут автоматически удаляться через -5 дней"]
       [put_bucket_lifecycle_configuration "bucketmaks"
          (lifecycle_config (PInt (-5)))])
  /\
  (exists rq,
      sent (snd (set_bucket_lifecycle_policy healthy sample_repr
                   (Some (PInt (-5))) (mkWorld sample_client 0 [] [])))
      = [] ++ [rq]
      /\ days_sent rq = Some (PInt (-5))
      /\ remote (snd (set_bucket_lifecycle_policy healthy sample_repr
                        (Some (PInt (-5))) (mkWorld sample_client 0 [] [])))
         = snd (answer healthy (mkWorld sample_client 0 [] []) rq)
      /\ (fst (set_bucket_lifecycle_policy healthy sample_repr
                 (Some (PInt (-5))) (mkWorld sample_client 0 [] []))
          = Returns (PBool true)
          <-> exists v,
              fst (answer healthy (mkWorld sample_client 0 [] []) rq)
              = Returns v)).
Proof.
  split; [| split].
  - exact (f_equal fst
             (proj2 (set_bucket_lifecycle_policy_no_validation nat healthy
                       sample_repr (PInt 0) (mkWorld sample_client 0 [] []))
                _ _ eq_refl)).
  - exact (proj2 (set_bucket_lifecycle_policy_no_validation nat healthy
                    sample_repr (PInt (-5)) (mkWorld sample_client 0 [] []))
             _ _ eq_refl).
  - exact (proj1 (set_bucket_lifecycle_policy_no_validation nat healthy
                    sample_repr (PInt (-5)) (mkWorld sample_client 0 [] []))).
Defined.


(** C8, on a service that cannot be reached. *)
Lemma transfer_errors_propagate_witness :
  upload (failing endpoint_connection_error) "sales_data.csv" "sales_data.csv"
    (mkWorld sample_client 0 [] [])
  = (Raises endpoint_connection_error,
     mkWorld sample_client 1 []
       [upload_file "sales_data.csv" "bucketmaks" "sales_data.csv"])
  /\
  download (failing not_found_404) "sales_data.csv" "copy.csv"
    (mkWorld sample_client 0 [] [])
  = (Raises not_found_404,
     mkWorld sample_client 1 []
       [download_file "bucketmaks" "sales_data.csv" "copy.csv"]).
Proof.
  split.
  - eapply (proj1 (transfer_errors_propagate nat
                     (failing endpoint_connection_error)
                     "sales_data.csv" "sales_data.csv"
                     endpoint_connection_error
                     (mkWorld sample_client 0 [] []))
              _ eq_refl).
  - eapply (proj2 (transfer_errors_propagate nat (failing not_found_404)
                     "copy.csv" "sales_data.csv" not_found_404
                     (mkWorld sample_client 0 [] []))
              _ eq_refl).
Defined.

(** C10, on a service where both transfers succeed. *)
Lemma transfer_returns_None_witness :
  upload healthy "sales_data.csv" "sales_data.csv"
    (mkWorld sample_client 0 [] [])
  = (Returns PNone,
     mkWorld sample_client 1 ["Загружено: sales_data.csv"]
       [upload_file "sales_data.csv" "bucketmaks" "sales_data.csv"])
  /\
  download healthy "sales_data.csv" "copy.csv"
    (mkWorld sample_client 0 [] [])
  = (Returns PNone,
     mkWorld sample_client 1 ["Скачано: sales_data.csv"]
       [download_file "bucketmaks" "sales_data.csv" "copy.csv"]).
Proof.
  split.
  - eapply (proj1 (transfer_returns_None nat healthy
                     "sales_data.csv" "sales_data.csv"
                     (mkWorld sample_client 0 [] []))
              _ _ eq_refl).
  - eapply (proj2 (transfer_returns_None nat healthy
                     "copy.csv" "sales_data.csv"
                     (mkWorld sample_client 0 [] []))
              _ _ eq_refl).
Defined.

(** ** Further runs *)

(** With the argument omitted, three days are sent and announced. *)
Example set_bucket_lifecycle_policy_default_run :
  set_bucket_lifecycle_policy healthy sample_repr None
    (mkWorld sample_client 0 [] [])
  = (Returns (PBool true),
     mkWorld sample_client 1
       ["✅ Lifecycle policy настроена успешно";
        "   Объекты в бакете 'bucketmaks' будут автоматически удаляться через 3 дней"]
       [put_bucket_lifecycle_configuration "bucketmaks"
          (PDict
             [("Rules",
               PList
                 [PDict [("Status", PStr "Enabled");
                         ("Filter", PDict [("Prefix", PStr "")]);
                         ("Expiration", PDict [("Days", PInt 3)])]])])]).
Proof. reflexivity. Qed.

(** An access-denied answer to the versioning request, and one with a
    code of neither named class. *)
Example enable_bucket_versioning_other_codes :
  stdout (snd (enable_bucket_versioning (failing access_denied) sample_repr
                 (mkWorld sample_client 0 [] [])))
  = ["❌ Доступ запрещен для бакета 'bucketmaks'"]
  /\
  stdout (snd (enable_bucket_versioning (failing not_found_404) sample_repr
                 (mkWorld sample_client 0 [] [])))
  = ["❌ Ошибка включения версионирования: 404"].
Proof. split; reflexivity. Qed.

(** [except Exception] lets a [KeyboardInterrupt] through: it is a
    [BaseException] that is not an error. *)
Example set_bucket_lifecycle_policy_interrupted :
  fst (set_bucket_lifecycle_policy
         (failing (PyBaseException "KeyboardInterrupt" "")) sample_repr
         None (mkWorld sample_client 0 [] []))
  = Raises (PyBaseException "KeyboardInterrupt" "").
Proof. reflexivity. Qed.

(** A whole session against a failing service: seven operations later
    the instance is the constructed one, and seven requests were made. *)
Example session_run :
  let w := session (failing access_denied) sample_dumps sample_repr
             [OpSetBucketPolicy; OpEnableBucketVersioning;
              OpSetBucketLifecyclePolicy None;
              OpUpload "sales_data.csv" "sales_data.csv";
              OpDownload "sales_data.csv" "copy.csv";
              OpListFiles; OpFileExists "sales_data.csv"]
             (mkWorld sample_client 0 [] []) in
  self w = sample_client /\ remote w = 7 /\ length (sent w) = 7.
Proof. repeat split. Qed.

(** ** The further statements on the sample services *)

(** X1, on an error response without ["Error"] and on one whose
    ["Error"] has no ["Code"]. *)
Lemma enable_bucket_versioning_missing_code_witness :
  fst (enable_bucket_versioning
         (failing (ClientError "bare" (PDict []))) sample_repr
         (mkWorld sample_client 0 [] []))
  = Raises (KeyError "Error")
  /\
  enable_bucket_versioning
    (failing (ClientError "no code"
                (PDict [("Error", PDict [("Message", PStr "denied")])])))
    sample_repr (mkWorld sample_client 0 [] [])
  = (Raises (KeyError "Code"),
     mkWorld sample_client 1 []
       [put_bucket_versioning "bucketmaks" (PDict [("Status", PStr "Enabled")])]).
Proof.
  split.
  - exact (f_equal fst
             (proj1 (enable_bucket_versioning_missing_code nat
                       (failing (ClientError "bare" (PDict []))) sample_repr
                       (mkWorld sample_client 0 [] []) "bare" [] 1 eq_refl)
                eq_refl)).
  - exact (proj2 (enable_bucket_versioning_missing_code nat
                    (failing (ClientError "no code"
                                (PDict [("Error",
                                         PDict [("Message", PStr "denied")])])))
                    sample_repr (mkWorld sample_client 0 [] []) "no code"
                    [("Error", PDict [("Message", PStr "denied")])] 1 eq_refl)
             _ eq_refl eq_refl).
Defined.

(** X2, on a service that accepts the request and on one that answers
    [NoSuchBucket]. *)
Lemma enable_bucket_versioning_flag_witness :
  fst (enable_bucket_versioning healthy sample_repr
         (mkWorld sample_client 0 [] []))
  = Returns (PBool true)
  /\
  exists text response,
    fst (answer (failing no_such_bucket) (mkWorld sample_client 0 [] [])
           (versioning_request (mkWorld sample_client 0 [] [])))
    = Raises (ClientError text response).
Proof.
  split.
  - apply (proj2 (proj1 (enable_bucket_versioning_flag nat healthy sample_repr
                           (mkWorld sample_client 0 [] [])))).
    eexists. reflexivity.
  - exact (proj2 (enable_bucket_versioning_flag nat (failing no_such_bucket)
                    sample_repr (mkWorld sample_client 0 [] []))
             eq_refl).
Defined.

(** X3, on an interrupted request. *)
Lemma set_bucket_lifecycle_policy_escapes_witness :
  is_Exception keyboard_interrupt = false
  /\ fst (answer (failing keyboard_interrupt) (mkWorld sample_client 0 [] [])
             (lifecycle_request (mkWorld sample_client 0 [] []) None))
     = Raises keyboard_interrupt
  /\ stdout (snd (set_bucket_lifecycle_policy (failing keyboard_interrupt)
                     sample_repr None (mkWorld sample_client 0 [] [])))
     = [].
Proof.
  exact (set_bucket_lifecycle_policy_escapes nat (failing keyboard_interrupt)
           sample_repr None (mkWorld sample_client 0 [] [])
           keyboard_interrupt eq_refl).
Defined.

(** X4, on a service that denies the listing. *)
Lemma list_files_propagates_witness :
  list_files (failing access_denied) (mkWorld sample_client 0 [] [])
  = (Raises access_denied,
     mkWorld sample_client 1 [] [list_objects_v2 "bucketmaks"]).
Proof.
  exact (list_files_propagates nat (failing access_denied)
           (mkWorld sample_client 0 [] []) access_denied 1 eq_refl).
Defined.

(** X5, on a listing of three entries of which the second has no key. *)
Lemma list_files_entry_without_key_witness :
  list_files (answering ragged_listing) (mkWorld sample_client 0 [] [])
  = (Raises (KeyError "Key"),
     mkWorld sample_client 1 [] [list_objects_v2 "bucketmaks"]).
Proof.
  refine (list_files_entry_without_key nat (answering ragged_listing)
            (mkWorld sample_client 0 [] [])
            [("Contents",
              PList [PDict [("Key", PStr "a.csv")];
                     PDict [("Size", PInt 3)];
                     PDict [("Key", PStr "c.csv")]])]
            [("Size", PInt 3)]
            [PDict [("Key", PStr "a.csv")]]
            [PDict [("Key", PStr "c.csv")]]
            [PStr "a.csv"] 1 eq_refl eq_refl _ eq_refl).
  repeat constructor.
Defined.

(** X6, on the bucket with two objects. *)
Lemma list_files_result_shape_witness :
  exists keys,
    PList [PStr "a.csv"; PStr "b.csv"] = PList keys
    /\ length keys = 2
    /\ Forall2 (fun obj k => py_getitem obj "Key" = Returns k)
         [PDict [("Key", PStr "a.csv"); ("Size", PInt 10)];
          PDict [("Key", PStr "b.csv"); ("Size", PInt 20)]]
         keys.
Proof.
  exact (list_files_result_shape nat healthy (mkWorld sample_client 0 [] [])
           _ _ 1 _ eq_refl eq_refl eq_refl).
Defined.

(** X8, on three queries, one of which fails. *)
Lemma queries_only_probe_witness :
  stdout (session (failing not_found_404) sample_dumps sample_repr
            [OpListFiles; OpFileExists "sales_data.csv"; OpListFiles]
            (mkWorld sample_client 0 ["earlier line"] []))
  = ["earlier line"]
  /\
  exists news,
    sent (session (failing not_found_404) sample_dumps sample_repr
            [OpListFiles; OpFileExists "sales_data.csv"; OpListFiles]
            (mkWorld sample_client 0 ["earlier line"] []))
    = [] ++ news
    /\ forallb is_probe news = true.
Proof.
  exact (queries_only_probe nat (failing not_found_404) sample_dumps
           sample_repr
           [OpListFiles; OpFileExists "sales_data.csv"; OpListFiles]
           (mkWorld sample_client 0 ["earlier line"] []) eq_refl).
Defined.

(** X9, on a listing and on a failed existence probe. *)
Lemma perform_returns_kind_witness :
  (exists keys, PList [PStr "a.csv"; PStr "b.csv"] = PList keys)
  /\ (exists b, PBool false = PBool b).
Proof.
  split.
  - exact (perform_returns_kind nat healthy sample_dumps sample_repr
             OpListFiles (mkWorld sample_client 0 [] []) _ eq_refl).
  - exact (perform_returns_kind nat (failing not_found_404) sample_dumps
             sample_repr (OpFileExists "sales_data.csv")
             (mkWorld sample_client 0 [] []) _ eq_refl).
Defined.

(** X7, on two operations against a service that counts the requests
    it serves: a failed upload and a listing leave it at two. *)
Example session_one_request_each_run :
  remote (session (failing access_denied) sample_dumps sample_repr
            [OpUpload "sales_data.csv" "sales_data.csv"; OpListFiles]
            (mkWorld sample_client 0 [] []))
  = serve (failing access_denied) (s3 sample_client)
      [upload_file "sales_data.csv" "bucketmaks" "sales_data.csv";
       list_objects_v2 "bucketmaks"] 0
  /\
  serve (failing access_denied) (s3 sample_client)
    [upload_file "sales_data.csv" "bucketmaks" "sales_data.csv";
     list_objects_v2 "bucketmaks"] 0
  = 2.
Proof. split; reflexivity. Qed.
